(** * Status updater of the Flink session cluster controller

    A shallow embedding of [controllers/flinksessioncluster_updater.go]:
    the updater derives the status of a cluster from the observed state of
    its components, compares it with the status recorded on the cluster
    and writes it back through the Kubernetes client when it changed.

    Go values are modelled as follows.
    - [string] is [string]; its zero value is the empty string.
    - [int32] and [int] are [Z]; the code only compares replica and pod
      counts and increments a tally that never exceeds three, so no
      wrap-around can occur.
    - A pointer that the code tests against [nil] is an [option].  The
      code never writes through such a pointer after it has been
      published, so the pointee is kept by value.
    - A struct compared with [!=] is compared field by field with a
      boolean equality.
    - A method with receiver [*_ClusterStatusUpdater] is a computation in
      the monad [M], whose state holds the updater, the clock, the log
      and the calls received by the API server.  Dereferencing [nil]
      panics; a panic stops the computation and keeps the state. *)

From Stdlib Require Import String ZArith List Bool Lia.
Import ListNotations.

Local Open Scope string_scope.
Local Open Scope Z_scope.

Set Implicit Arguments.

(** ** Kubernetes API objects read by the updater *)

Module metav1.

Record ObjectMeta := {
  Name : string;
  Namespace : string;
  ResourceVersion : string
}.

End metav1.

Module appsv1.

(** The desired state of a deployment; [Replicas] is the desired number of
    pods, a pointer in the API.  The updater never reads it. *)
Module DeploymentSpec.

Record t := {
  Replicas : option Z
}.

End DeploymentSpec.

(** The observed state of a deployment; [Replicas] is the number of pods
    the deployment has at present. *)
Record DeploymentStatus := {
  Replicas : Z;
  AvailableReplicas : Z;
  ReadyReplicas : Z
}.

Record Deployment := {
  ObjectMeta : metav1.ObjectMeta;
  Spec : DeploymentSpec.t;
  Status : DeploymentStatus
}.

End appsv1.

Module corev1.

Record Service := {
  ObjectMeta : metav1.ObjectMeta
}.

End corev1.

Module batchv1.

Record JobStatus := {
  Active : Z;
  Succeeded : Z;
  Failed : Z
}.

Record Job := {
  ObjectMeta : metav1.ObjectMeta;
  Status : JobStatus
}.

End batchv1.

(** ** The custom resource *)

Module flinkoperatorv1alpha1.

(** Modelled from the spec: the constants of [api/v1alpha1] are not part
    of the sources at hand; each state is the string that names it. *)
Module ClusterState.
Definition Reconciling : string := "Reconciling".
Definition Running : string := "Running".
End ClusterState.

(** Modelled from the spec: the states of a replica-backed component. *)
Module ClusterComponentState.
Definition NotReady : string := "NotReady".
Definition Ready : string := "Ready".
End ClusterComponentState.

(** Modelled from the spec: the states of a run-to-completion component. *)
Module JobState.
Definition Running : string := "Running".
Definition Succeeded : string := "Succeeded".
Definition Failed : string := "Failed".
Definition Unknown : string := "Unknown".
End JobState.

(** The status of a mandatory component.  The updater assigns
    [status.Components.JobManagerDeployment.Name] on a freshly zeroed
    status and compares the slots with [!=], so a slot is a struct held
    by value, never a pointer. *)
Module ComponentStatus.

Record t := {
  Name : string;
  State : string
}.

Definition zero : t := {| Name := ""; State := "" |}.

Definition set_Name (v : string) (c : t) : t :=
  {| Name := v; State := State c |}.

Definition set_State (v : string) (c : t) : t :=
  {| Name := Name c; State := v |}.

(** Go's [==] on the struct. *)
Definition eqb (a b : t) : bool :=
  String.eqb (Name a) (Name b) && String.eqb (State a) (State b).

End ComponentStatus.

(** The status of the optional job, reached through a pointer. *)
Module JobStatus.

Record t := {
  Name : string;
  State : string
}.

Definition zero : t := {| Name := ""; State := "" |}.

Definition set_Name (v : string) (j : t) : t :=
  {| Name := v; State := State j |}.

Definition set_State (v : string) (j : t) : t :=
  {| Name := Name j; State := v |}.

Definition eqb (a b : t) : bool :=
  String.eqb (Name a) (Name b) && String.eqb (State a) (State b).

End JobStatus.

Record FlinkSessionClusterComponentsStatus := {
  JobManagerDeployment : ComponentStatus.t;
  JobManagerService : ComponentStatus.t;
  TaskManagerDeployment : ComponentStatus.t;
  Job : option JobStatus.t
}.

Record FlinkSessionClusterStatus := {
  State : string;
  Components : FlinkSessionClusterComponentsStatus;
  LastUpdateTime : string
}.

(** [FlinkSessionClusterStatus{}] *)
Definition zeroStatus : FlinkSessionClusterStatus :=
  {| State := "";
     Components :=
       {| JobManagerDeployment := ComponentStatus.zero;
          JobManagerService := ComponentStatus.zero;
          TaskManagerDeployment := ComponentStatus.zero;
          Job := None |};
     LastUpdateTime := "" |}.

Definition set_State (v : string) (s : FlinkSessionClusterStatus) :=
  {| State := v; Components := Components s;
     LastUpdateTime := LastUpdateTime s |}.

Definition set_LastUpdateTime (v : string) (s : FlinkSessionClusterStatus) :=
  {| State := State s; Components := Components s; LastUpdateTime := v |}.

Definition upd_Components
    (f : FlinkSessionClusterComponentsStatus ->
         FlinkSessionClusterComponentsStatus)
    (s : FlinkSessionClusterStatus) :=
  {| State := State s; Components := f (Components s);
     LastUpdateTime := LastUpdateTime s |}.

Definition upd_JobManagerDeployment
    (f : ComponentStatus.t -> ComponentStatus.t)
    (c : FlinkSessionClusterComponentsStatus) :=
  {| JobManagerDeployment := f (JobManagerDeployment c);
     JobManagerService := JobManagerService c;
     TaskManagerDeployment := TaskManagerDeployment c;
     Job := Job c |}.

Definition upd_JobManagerService
    (f : ComponentStatus.t -> ComponentStatus.t)
    (c : FlinkSessionClusterComponentsStatus) :=
  {| JobManagerDeployment := JobManagerDeployment c;
     JobManagerService := f (JobManagerService c);
     TaskManagerDeployment := TaskManagerDeployment c;
     Job := Job c |}.

Definition upd_TaskManagerDeployment
    (f : ComponentStatus.t -> ComponentStatus.t)
    (c : FlinkSessionClusterComponentsStatus) :=
  {| JobManagerDeployment := JobManagerDeployment c;
     JobManagerService := JobManagerService c;
     TaskManagerDeployment := f (TaskManagerDeployment c);
     Job := Job c |}.

Definition set_Job (v : option JobStatus.t)
    (c : FlinkSessionClusterComponentsStatus) :=
  {| JobManagerDeployment := JobManagerDeployment c;
     JobManagerService := JobManagerService c;
     TaskManagerDeployment := TaskManagerDeployment c;
     Job := v |}.

(** Modelled from the spec: the generated [DeepCopyInto] of the status is
    not part of the sources at hand.  It fills the target with a copy that
    shares no storage with the receiver; on values that is the receiver's
    value. *)
Definition Status_DeepCopy (s : FlinkSessionClusterStatus) :
    FlinkSessionClusterStatus :=
  {| State := State s;
     Components :=
       {| JobManagerDeployment := JobManagerDeployment (Components s);
          JobManagerService := JobManagerService (Components s);
          TaskManagerDeployment := TaskManagerDeployment (Components s);
          Job := match Job (Components s) with
                 | Some j =>
                     Some {| JobStatus.Name := JobStatus.Name j;
                             JobStatus.State := JobStatus.State j |}
                 | None => None
                 end |};
     LastUpdateTime := LastUpdateTime s |}.

(** The parent resource.  The updater never looks into the spec, whose
    type is left open. *)
Record FlinkSessionCluster (SpecT : Type) := {
  ObjectMeta : metav1.ObjectMeta;
  Spec : SpecT;
  Status : FlinkSessionClusterStatus
}.

(** Modelled from the spec: the generated [DeepCopyInto] of the resource,
    likewise absent from the sources at hand. *)
Definition DeepCopy (SpecT : Type) (c : FlinkSessionCluster SpecT) :
    FlinkSessionCluster SpecT :=
  {| ObjectMeta := ObjectMeta c;
     Spec := Spec c;
     Status := Status_DeepCopy (Status c) |}.

(** [flinkSessionCluster.Status = status] *)
Definition set_Status (SpecT : Type) (v : FlinkSessionClusterStatus)
    (c : FlinkSessionCluster SpecT) : FlinkSessionCluster SpecT :=
  {| ObjectMeta := ObjectMeta c; Spec := Spec c; Status := v |}.

End flinkoperatorv1alpha1.

Module v1alpha1 := flinkoperatorv1alpha1.

(** ** The updater and the effects it has *)

(** Go's [error]; [None] is [nil]. *)
Definition error : Type := option string.

(** A value handed to the logger after a key. *)
Inductive LogValue : Type :=
| LString (s : string)
| LComponent (c : v1alpha1.ComponentStatus.t)
| LJob (j : v1alpha1.JobStatus.t)
| LStatus (s : v1alpha1.FlinkSessionClusterStatus).

(** One call of [log.Info]. *)
Record LogEntry := {
  message : string;
  keysAndValues : list (string * LogValue)
}.

(** How a call ends: it returns, or it panics. *)
Inductive Outcome (A : Type) : Type :=
| Returned (a : A)
| Panicked.

Arguments Panicked {A}.

Section controllers.

Variable FlinkSessionClusterSpec : Type.

Let FlinkSessionCluster : Type :=
  v1alpha1.FlinkSessionCluster FlinkSessionClusterSpec.

(** The observed state; every field is a pointer, [nil] when the object
    was not found. *)
Record _ObservedClusterState := {
  cluster : option FlinkSessionCluster;
  jmDeployment : option appsv1.Deployment;
  jmService : option corev1.Service;
  tmDeployment : option appsv1.Deployment;
  job : option batchv1.Job
}.

(** The updater.  [k8sClient] gives the answer of the API server to an
    update; the [context] and [log] fields carry no data of their own, the
    lines written to the log are collected in the [World]. *)
Record _ClusterStatusUpdater := {
  k8sClient : FlinkSessionCluster -> error;
  observedState : _ObservedClusterState
}.

(** What a method of the updater can read and write. *)
Record World := {
  updater : _ClusterStatusUpdater;
  now : string;
  log : list LogEntry;
  updates : list FlinkSessionCluster
}.

Definition M (A : Type) : Type := World -> Outcome A * World.

Definition ret (A : Type) (a : A) : M A :=
  fun w => (Returned a, w).

Definition bind (A B : Type) (c : M A) (k : A -> M B) : M B :=
  fun w =>
    match c w with
    | (Returned a, w') => k a w'
    | (Panicked, w') => (Panicked, w')
    end.

Declare Scope go_scope.
Delimit Scope go_scope with go.

Notation "x <- c ;; k" := (bind c (fun x => k))
  (at level 61, c at next level, right associativity) : go_scope.
Notation "c ;; k" := (bind c (fun _ => k))
  (at level 61, right associativity) : go_scope.

Local Open Scope go_scope.

(** The receiver [updater]. *)
Definition getUpdater : M _ClusterStatusUpdater :=
  fun w => (Returned (updater w), w).

(** [*p]: a nil pointer dereference panics. *)
Definition deref (A : Type) (p : option A) : M A :=
  fun w =>
    match p with
    | Some a => (Returned a, w)
    | None => (Panicked, w)
    end.

(** [updater.log.Info(msg, keysAndValues...)] *)
Definition log_Info (msg : string) (kvs : list (string * LogValue)) :
    M unit :=
  fun w =>
    (Returned tt,
     {| updater := updater w; now := now w;
        log := log w ++ [{| message := msg; keysAndValues := kvs |}];
        updates := updates w |}).

(** [time.Now().Format(time.RFC3339)] *)
Definition time_Now_RFC3339 : M string :=
  fun w => (Returned (now w), w).

(** [updater.k8sClient.Update(updater.context, &obj)]: the server receives
    the object and the client reports its answer. *)
Definition k8sClient_Update (obj : FlinkSessionCluster) : M error :=
  fun w =>
    (Returned (k8sClient (updater w) obj),
     {| updater := updater w; now := now w; log := log w;
        updates := updates w ++ [obj] |}).

(** *** deriveClusterStatus

    The body assigns the locals [status] and [readyComponents]; each of
    its blocks is a function on that pair. *)

Definition Locals : Type := (v1alpha1.FlinkSessionClusterStatus * Z)%type.

(** The condition of lines 82-85 and 110-113. *)
Definition replicasMissing (d : appsv1.Deployment) : bool :=
  (appsv1.AvailableReplicas (appsv1.Status d) <?
     appsv1.Replicas (appsv1.Status d)) ||
  (appsv1.ReadyReplicas (appsv1.Status d) <?
     appsv1.Replicas (appsv1.Status d)).

(** Lines 78-93, JobManager deployment. *)
Definition deriveJmDeployment
    (observedJmDeployment : option appsv1.Deployment) (l : Locals) :
    Locals :=
  let '(status, readyComponents) := l in
  match observedJmDeployment with
  | Some d =>
      let status :=
        v1alpha1.upd_Components
          (v1alpha1.upd_JobManagerDeployment
             (v1alpha1.ComponentStatus.set_Name
                (metav1.Name (appsv1.ObjectMeta d)))) status in
      if replicasMissing d then
        (v1alpha1.upd_Components
           (v1alpha1.upd_JobManagerDeployment
              (v1alpha1.ComponentStatus.set_State
                 v1alpha1.ClusterComponentState.NotReady)) status,
         readyComponents)
      else
        (v1alpha1.upd_Components
           (v1alpha1.upd_JobManagerDeployment
              (v1alpha1.ComponentStatus.set_State
                 v1alpha1.ClusterComponentState.Ready)) status,
         readyComponents + 1)
  | None => (status, readyComponents)
  end.

(** Lines 96-103, JobManager service. *)
Definition deriveJmService
    (observedJmService : option corev1.Service) (l : Locals) : Locals :=
  let '(status, readyComponents) := l in
  match observedJmService with
  | Some s =>
      let status :=
        v1alpha1.upd_Components
          (v1alpha1.upd_JobManagerService
             (v1alpha1.ComponentStatus.set_Name
                (metav1.Name (corev1.ObjectMeta s)))) status in
      (v1alpha1.upd_Components
         (v1alpha1.upd_JobManagerService
            (v1alpha1.ComponentStatus.set_State
               v1alpha1.ClusterComponentState.Ready)) status,
       readyComponents + 1)
  | None => (status, readyComponents)
  end.

(** Lines 106-121, TaskManager deployment. *)
Definition deriveTmDeployment
    (observedTmDeployment : option appsv1.Deployment) (l : Locals) :
    Locals :=
  let '(status, readyComponents) := l in
  match observedTmDeployment with
  | Some d =>
      let status :=
        v1alpha1.upd_Components
          (v1alpha1.upd_TaskManagerDeployment
             (v1alpha1.ComponentStatus.set_Name
                (metav1.Name (appsv1.ObjectMeta d)))) status in
      if replicasMissing d then
        (v1alpha1.upd_Components
           (v1alpha1.upd_TaskManagerDeployment
              (v1alpha1.ComponentStatus.set_State
                 v1alpha1.ClusterComponentState.NotReady)) status,
         readyComponents)
      else
        (v1alpha1.upd_Components
           (v1alpha1.upd_TaskManagerDeployment
              (v1alpha1.ComponentStatus.set_State
                 v1alpha1.ClusterComponentState.Ready)) status,
         readyComponents + 1)
  | None => (status, readyComponents)
  end.

(** Lines 128-136, the state of an observed job. *)
Definition deriveJobState (observedJob : batchv1.Job) : string :=
  if batchv1.Active (batchv1.Status observedJob) >? 0 then
    v1alpha1.JobState.Running
  else if batchv1.Failed (batchv1.Status observedJob) >? 0 then
    v1alpha1.JobState.Failed
  else if batchv1.Succeeded (batchv1.Status observedJob) >? 0 then
    v1alpha1.JobState.Succeeded
  else
    v1alpha1.JobState.Unknown.

(** Lines 124-137, the optional job; [readyComponents] is not touched. *)
Definition deriveJob (observedJob : option batchv1.Job) (l : Locals) :
    Locals :=
  let '(status, readyComponents) := l in
  match observedJob with
  | Some j =>
      let newJob := v1alpha1.JobStatus.zero in
      let newJob :=
        v1alpha1.JobStatus.set_Name
          (metav1.Name (batchv1.ObjectMeta j)) newJob in
      let newJob := v1alpha1.JobStatus.set_State (deriveJobState j) newJob in
      (v1alpha1.upd_Components (v1alpha1.set_Job (Some newJob)) status,
       readyComponents)
  | None => (status, readyComponents)
  end.

(** Lines 139-143, the state of the cluster. *)
Definition deriveState (l : Locals) : v1alpha1.FlinkSessionClusterStatus :=
  let '(status, readyComponents) := l in
  if readyComponents <? 3 then
    v1alpha1.set_State v1alpha1.ClusterState.Reconciling status
  else
    v1alpha1.set_State v1alpha1.ClusterState.Running status.

(** The locals when line 139 is reached. *)
Definition deriveLocals (observed : _ObservedClusterState) : Locals :=
  let status := v1alpha1.zeroStatus in
  let readyComponents := 0 in
  let l := deriveJmDeployment (jmDeployment observed)
             (status, readyComponents) in
  let l := deriveJmService (jmService observed) l in
  let l := deriveTmDeployment (tmDeployment observed) l in
  deriveJob (job observed) l.

Definition deriveClusterStatus : M v1alpha1.FlinkSessionClusterStatus :=
  updater <- getUpdater ;;
  let l := deriveLocals (observedState updater) in
  ret (deriveState l).

(** *** isStatusChanged *)

Definition isStatusChanged
    (currentStatus newStatus : v1alpha1.FlinkSessionClusterStatus) :
    M bool :=
  let changed := false in
  changed <-
    (if negb (String.eqb (v1alpha1.State newStatus)
                (v1alpha1.State currentStatus)) then
       let changed := true in
       log_Info "Cluster state changed"
         [("current", LString (v1alpha1.State currentStatus));
          ("new", LString (v1alpha1.State newStatus))] ;;
       ret changed
     else ret changed) ;;
  changed <-
    (if negb (v1alpha1.ComponentStatus.eqb
                (v1alpha1.JobManagerDeployment (v1alpha1.Components newStatus))
                (v1alpha1.JobManagerDeployment
                   (v1alpha1.Components currentStatus))) then
       log_Info "JobManager deployment status changed"
         [("current",
           LComponent (v1alpha1.JobManagerDeployment
                         (v1alpha1.Components currentStatus)));
          ("new",
           LComponent (v1alpha1.JobManagerDeployment
                         (v1alpha1.Components newStatus)))] ;;
       ret true
     else ret changed) ;;
  changed <-
    (if negb (v1alpha1.ComponentStatus.eqb
                (v1alpha1.JobManagerService (v1alpha1.Components newStatus))
                (v1alpha1.JobManagerService
                   (v1alpha1.Components currentStatus))) then
       log_Info "JobManager service status changed"
         [("current",
           LComponent (v1alpha1.JobManagerService
                         (v1alpha1.Components currentStatus)));
          ("new",
           LComponent (v1alpha1.JobManagerService
                         (v1alpha1.Components newStatus)))] ;;
       ret true
     else ret changed) ;;
  changed <-
    (if negb (v1alpha1.ComponentStatus.eqb
                (v1alpha1.TaskManagerDeployment
                   (v1alpha1.Components newStatus))
                (v1alpha1.TaskManagerDeployment
                   (v1alpha1.Components currentStatus))) then
       log_Info "TaskManager deployment status changed"
         [("current",
           LComponent (v1alpha1.TaskManagerDeployment
                         (v1alpha1.Components currentStatus)));
          ("new",
           LComponent (v1alpha1.TaskManagerDeployment
                         (v1alpha1.Components newStatus)))] ;;
       ret true
     else ret changed) ;;
  changed <-
    match v1alpha1.Job (v1alpha1.Components currentStatus) with
    | None =>
        match v1alpha1.Job (v1alpha1.Components newStatus) with
        | Some newJob =>
            log_Info "Job status changed"
              [("current", LString "nil"); ("new", LJob newJob)] ;;
            ret true
        | None => ret changed
        end
    | Some currentJob =>
        newJob <- deref (v1alpha1.Job (v1alpha1.Components newStatus)) ;;
        if negb (v1alpha1.JobStatus.eqb newJob currentJob) then
          log_Info "Job status changed"
            [("current", LJob currentJob); ("new", LJob newJob)] ;;
          ret true
        else ret changed
    end ;;
  ret changed.

(** *** updateClusterStatus *)

Definition updateClusterStatus
    (status : v1alpha1.FlinkSessionClusterStatus) : M error :=
  updater <- getUpdater ;;
  observedCluster <- deref (cluster (observedState updater)) ;;
  let flinkSessionCluster := v1alpha1.DeepCopy observedCluster in
  let flinkSessionCluster := v1alpha1.set_Status status flinkSessionCluster in
  k8sClient_Update flinkSessionCluster.

(** *** updateClusterStatusIfChanged *)

Definition updateClusterStatusIfChanged : M error :=
  updater <- getUpdater ;;
  match cluster (observedState updater) with
  | None =>
      log_Info "The cluster has been deleted, no status to update" [] ;;
      ret None
  | Some observedCluster =>
      let currentStatus :=
        v1alpha1.Status_DeepCopy (v1alpha1.Status observedCluster) in
      let currentStatus := v1alpha1.set_LastUpdateTime "" currentStatus in
      newStatus <- deriveClusterStatus ;;
      changed <- isStatusChanged currentStatus newStatus ;;
      if changed then
        log_Info "Updating status"
          [("current", LStatus (v1alpha1.Status observedCluster));
           ("new", LStatus newStatus)] ;;
        formatted <- time_Now_RFC3339 ;;
        let newStatus := v1alpha1.set_LastUpdateTime formatted newStatus in
        updateClusterStatus newStatus
      else
        log_Info "No status change" [] ;;
        ret None
  end.

End controllers.

(** ** Vocabulary of the statements *)

(** A deployment lacks replicas when fewer are available, or fewer are
    ready, than [Status.Replicas], the number of pods its status reports.
    The desired number, [Spec.Replicas], plays no part. *)
Definition lacksReplicas (d : appsv1.Deployment) : Prop :=
  appsv1.AvailableReplicas (appsv1.Status d) <
    appsv1.Replicas (appsv1.Status d) \/
  appsv1.ReadyReplicas (appsv1.Status d) < appsv1.Replicas (appsv1.Status d).

(** The snapshot of [w] with another job, everything else untouched. *)
Definition withJob (SpecT : Type) (j : option batchv1.Job) (w : World SpecT) :
    World SpecT :=
  {| updater :=
       {| k8sClient := k8sClient (updater w);
          observedState :=
            {| cluster := cluster (observedState (updater w));
               jmDeployment := jmDeployment (observedState (updater w));
               jmService := jmService (observedState (updater w));
               tmDeployment := tmDeployment (observedState (updater w));
               job := j |} |};
     now := now w; log := log w; updates := updates w |}.

(** The snapshot of [w] after the observer has read the cluster again and
    found [c]. *)
Definition withCluster (SpecT : Type)
    (c : option (v1alpha1.FlinkSessionCluster SpecT)) (w : World SpecT) :
    World SpecT :=
  {| updater :=
       {| k8sClient := k8sClient (updater w);
          observedState :=
            {| cluster := c;
               jmDeployment := jmDeployment (observedState (updater w));
               jmService := jmService (observedState (updater w));
               tmDeployment := tmDeployment (observedState (updater w));
               job := job (observedState (updater w)) |} |};
     now := now w; log := log w; updates := updates w |}.

(** All three mandatory components are observed, and neither deployment
    lacks replicas. *)
Definition mandatoryReady (SpecT : Type) (o : _ObservedClusterState SpecT) :
    Prop :=
  (exists d, jmDeployment o = Some d /\ ~ lacksReplicas d) /\
  (exists s, jmService o = Some s) /\
  (exists d, tmDeployment o = Some d /\ ~ lacksReplicas d).

(** ** Sample objects *)

Definition sampleMeta (name : string) : metav1.ObjectMeta :=
  {| metav1.Name := name; metav1.Namespace := "default";
     metav1.ResourceVersion := "41" |}.

Definition sampleDeployment (name : string) (replicas available ready : Z) :
    appsv1.Deployment :=
  {| appsv1.ObjectMeta := sampleMeta name;
     appsv1.Spec := {| appsv1.DeploymentSpec.Replicas := Some replicas |};
     appsv1.Status :=
       {| appsv1.Replicas := replicas;
          appsv1.AvailableReplicas := available;
          appsv1.ReadyReplicas := ready |} |}.

(** A deployment just created: three pods are desired, none exists yet. *)
Definition sampleJmStarting : appsv1.Deployment :=
  {| appsv1.ObjectMeta := sampleMeta "c1-jobmanager";
     appsv1.Spec := {| appsv1.DeploymentSpec.Replicas := Some 3 |};
     appsv1.Status :=
       {| appsv1.Replicas := 0;
          appsv1.AvailableReplicas := 0;
          appsv1.ReadyReplicas := 0 |} |}.

Definition sampleJm : appsv1.Deployment :=
  sampleDeployment "c1-jobmanager" 3 3 3.

Definition sampleTm : appsv1.Deployment :=
  sampleDeployment "c1-taskmanager" 2 1 2.

Definition sampleTmReady : appsv1.Deployment :=
  sampleDeployment "c1-taskmanager" 2 2 2.

Definition sampleService : corev1.Service :=
  {| corev1.ObjectMeta := sampleMeta "c1-jobmanager" |}.

Definition sampleJob : batchv1.Job :=
  {| batchv1.ObjectMeta := sampleMeta "c1-job";
     batchv1.Status :=
       {| batchv1.Active := 1; batchv1.Succeeded := 0;
          batchv1.Failed := 1 |} |}.

Definition sampleComponent (name state : string) :
    v1alpha1.ComponentStatus.t :=
  {| v1alpha1.ComponentStatus.Name := name;
     v1alpha1.ComponentStatus.State := state |}.

Definition sampleJobStatus : v1alpha1.JobStatus.t :=
  {| v1alpha1.JobStatus.Name := "c1-job";
     v1alpha1.JobStatus.State := "Running" |}.

(** A recorded status: everything ready, written at some earlier time. *)
Definition sampleStatus (j : option v1alpha1.JobStatus.t) (time : string) :
    v1alpha1.FlinkSessionClusterStatus :=
  {| v1alpha1.State := "Running";
     v1alpha1.Components :=
       {| v1alpha1.JobManagerDeployment :=
            sampleComponent "c1-jobmanager" "Ready";
          v1alpha1.JobManagerService :=
            sampleComponent "c1-jobmanager" "Ready";
          v1alpha1.TaskManagerDeployment :=
            sampleComponent "c1-taskmanager" "Ready";
          v1alpha1.Job := j |};
     v1alpha1.LastUpdateTime := time |}.

(** The sample clusters carry the image of the cluster as their spec. *)
Definition sampleCluster (status : v1alpha1.FlinkSessionClusterStatus) :
    v1alpha1.FlinkSessionCluster string :=
  {| v1alpha1.ObjectMeta := sampleMeta "c1";
     v1alpha1.Spec := "flink:1.8.1";
     v1alpha1.Status := status |}.

Definition sampleObserved
    (c : option (v1alpha1.FlinkSessionCluster string))
    (tm : option appsv1.Deployment) (j : option batchv1.Job) :
    _ObservedClusterState string :=
  {| cluster := c; jmDeployment := Some sampleJm;
     jmService := Some sampleService; tmDeployment := tm; job := j |}.

(** A snapshot taken before any component was created. *)
Definition sampleObservedBare
    (c : option (v1alpha1.FlinkSessionCluster string)) :
    _ObservedClusterState string :=
  {| cluster := c; jmDeployment := None; jmService := None;
     tmDeployment := None; job := None |}.

(** A world whose API server accepts every update. *)
Definition sampleWorld (o : _ObservedClusterState string) : World string :=
  {| updater := {| k8sClient := fun _ => None; observedState := o |};
     now := "2019-10-01T12:00:00Z"; log := []; updates := [] |}.

(** A world whose API server answers every update with a conflict. *)
Definition sampleWorldConflict (o : _ObservedClusterState string) :
    World string :=
  {| updater :=
       {| k8sClient := fun _ => Some "the object has been modified";
          observedState := o |};
     now := "2019-10-02T08:30:00Z";
     log := [{| message := "earlier line"; keysAndValues := [] |}];
     updates := [] |}.

(** A computation keeps the updater when it leaves the receiver, and
    with it the observed state, as it found it. *)
Definition keepsUpdater (SpecT A : Type) (c : M SpecT A) : Prop :=
  forall w, updater (snd (c w)) = updater w.

(** A computation is silent towards the API server when it issues no
    update. *)
Definition issuesNoUpdate (SpecT A : Type) (c : M SpecT A) : Prop :=
  forall w, updates (snd (c w)) = updates w.

(** ** Equality of the status structs *)

Lemma ComponentStatus_eqb_eq (a b : v1alpha1.ComponentStatus.t) :
  v1alpha1.ComponentStatus.eqb a b = true <-> a = b.
Proof.
  destruct a as [an ast], b as [bn bst].
  unfold v1alpha1.ComponentStatus.eqb; cbn.
  rewrite andb_true_iff, !String.eqb_eq.
  split.
  - intros [-> ->]; reflexivity.
  - intros H; injection H; auto.
Qed.

Lemma ComponentStatus_eqb_refl (a : v1alpha1.ComponentStatus.t) :
  v1alpha1.ComponentStatus.eqb a a = true.
Proof. apply ComponentStatus_eqb_eq; reflexivity. Qed.

Lemma JobStatus_eqb_eq (a b : v1alpha1.JobStatus.t) :
  v1alpha1.JobStatus.eqb a b = true <-> a = b.
Proof.
  destruct a as [an ast], b as [bn bst].
  unfold v1alpha1.JobStatus.eqb; cbn.
  rewrite andb_true_iff, !String.eqb_eq.
  split.
  - intros [-> ->]; reflexivity.
  - intros H; injection H; auto.
Qed.

Lemma JobStatus_eqb_refl (a : v1alpha1.JobStatus.t) :
  v1alpha1.JobStatus.eqb a a = true.
Proof. apply JobStatus_eqb_eq; reflexivity. Qed.

Lemma Status_DeepCopy_id (s : v1alpha1.FlinkSessionClusterStatus) :
  v1alpha1.Status_DeepCopy s = s.
Proof.
  destruct s as [st [jmd jms tmd [[jn js]|]] t]; reflexivity.
Qed.

Lemma replicasMissing_true (d : appsv1.Deployment) :
  replicasMissing d = true <-> lacksReplicas d.
Proof.
  unfold replicasMissing, lacksReplicas.
  rewrite orb_true_iff, !Z.ltb_lt; tauto.
Qed.

Lemma replicasMissing_false (d : appsv1.Deployment) :
  replicasMissing d = false <-> ~ lacksReplicas d.
Proof.
  rewrite <- replicasMissing_true.
  destruct (replicasMissing d); split; congruence.
Qed.

Section properties.

Variable SpecT : Type.

Implicit Types (w : World SpecT) (o : _ObservedClusterState SpecT).
Implicit Types (currentStatus newStatus : v1alpha1.FlinkSessionClusterStatus).

Lemma DeepCopy_id (c : v1alpha1.FlinkSessionCluster SpecT) :
  v1alpha1.DeepCopy c = c.
Proof.
  destruct c as [m sp st]; unfold v1alpha1.DeepCopy; cbn.
  rewrite Status_DeepCopy_id; reflexivity.
Qed.

(** *** The monad *)

Lemma bind_Returned (A B : Type) (c : M SpecT A) (k : A -> M SpecT B)
    w a w' :
  c w = (Returned a, w') -> bind c k w = k a w'.
Proof. intros H; unfold bind; rewrite H; reflexivity. Qed.

Lemma bind_Panicked (A B : Type) (c : M SpecT A) (k : A -> M SpecT B)
    w w' :
  c w = (Panicked, w') -> bind c k w = (Panicked, w').
Proof. intros H; unfold bind; rewrite H; reflexivity. Qed.

Arguments bind_Returned [A B c] k [w a w'] _.
Arguments bind_Panicked [A B c] k [w w'] _.

Lemma keepsUpdater_ret (A : Type) (a : A) : keepsUpdater (@ret SpecT A a).
Proof. intros w; reflexivity. Qed.

Lemma keepsUpdater_bind (A B : Type) (c : M SpecT A) (k : A -> M SpecT B) :
  keepsUpdater c -> (forall a, keepsUpdater (k a)) -> keepsUpdater (bind c k).
Proof.
  intros Hc Hk w; unfold bind.
  specialize (Hc w).
  destruct (c w) as [[a|] w']; cbn in *.
  - rewrite Hk; exact Hc.
  - exact Hc.
Qed.

Lemma keepsUpdater_getUpdater : keepsUpdater (@getUpdater SpecT).
Proof. intros w; reflexivity. Qed.

Lemma keepsUpdater_deref (A : Type) (p : option A) :
  keepsUpdater (@deref SpecT A p).
Proof. intros w; destruct p; reflexivity. Qed.

Lemma keepsUpdater_log_Info msg kvs : keepsUpdater (@log_Info SpecT msg kvs).
Proof. intros w; reflexivity. Qed.

Lemma keepsUpdater_time_Now : keepsUpdater (@time_Now_RFC3339 SpecT).
Proof. intros w; reflexivity. Qed.

Lemma keepsUpdater_k8sClient_Update obj :
  keepsUpdater (@k8sClient_Update SpecT obj).
Proof. intros w; reflexivity. Qed.

Lemma keepsUpdater_if (A : Type) (b : bool) (c1 c2 : M SpecT A) :
  keepsUpdater c1 -> keepsUpdater c2 -> keepsUpdater (if b then c1 else c2).
Proof. destruct b; auto. Qed.

Create HintDb frame.

#[local] Hint Resolve keepsUpdater_ret keepsUpdater_bind
  keepsUpdater_getUpdater keepsUpdater_deref keepsUpdater_log_Info
  keepsUpdater_time_Now keepsUpdater_k8sClient_Update keepsUpdater_if : frame.

Lemma keepsUpdater_deriveClusterStatus :
  keepsUpdater (@deriveClusterStatus SpecT).
Proof. unfold deriveClusterStatus; auto with frame. Qed.

Lemma keepsUpdater_isStatusChanged currentStatus newStatus :
  keepsUpdater (@isStatusChanged SpecT currentStatus newStatus).
Proof.
  unfold isStatusChanged.
  repeat (apply keepsUpdater_bind; [ | intros ? ]); auto with frame.
  destruct (v1alpha1.Job (v1alpha1.Components currentStatus));
    [ | destruct (v1alpha1.Job (v1alpha1.Components newStatus)) ];
    auto 8 with frame.
Qed.

Lemma keepsUpdater_updateClusterStatus status :
  keepsUpdater (@updateClusterStatus SpecT status).
Proof. unfold updateClusterStatus; auto with frame. Qed.

#[local] Hint Resolve keepsUpdater_deriveClusterStatus
  keepsUpdater_isStatusChanged keepsUpdater_updateClusterStatus : frame.

Lemma keepsUpdater_updateClusterStatusIfChanged :
  keepsUpdater (@updateClusterStatusIfChanged SpecT).
Proof.
  unfold updateClusterStatusIfChanged.
  apply keepsUpdater_bind; [ auto with frame | intros u ].
  destruct (cluster (observedState u)); auto 10 with frame.
Qed.

(** *** Runs of the methods *)

Lemma deriveClusterStatus_run w :
  deriveClusterStatus w =
  (Returned (deriveState (deriveLocals (observedState (updater w)))), w).
Proof. reflexivity. Qed.

Lemma updateClusterStatus_run status w c :
  cluster (observedState (updater w)) = Some c ->
  updateClusterStatus status w =
  (Returned (k8sClient (updater w) (v1alpha1.set_Status status c)),
   {| updater := updater w; now := now w; log := log w;
      updates := updates w ++ [v1alpha1.set_Status status c] |}).
Proof.
  intros Hc.
  unfold updateClusterStatus, bind, getUpdater, deref; cbn.
  rewrite Hc, DeepCopy_id; reflexivity.
Qed.

Lemma isStatusChanged_unchanged currentStatus newStatus w :
  v1alpha1.State currentStatus = v1alpha1.State newStatus ->
  v1alpha1.Components currentStatus = v1alpha1.Components newStatus ->
  isStatusChanged currentStatus newStatus w = (Returned false, w).
Proof.
  intros Hs Hc.
  unfold isStatusChanged.
  rewrite Hs, Hc, String.eqb_refl, !ComponentStatus_eqb_refl.
  unfold bind, ret, deref; cbn.
  destruct (v1alpha1.Job (v1alpha1.Components newStatus)) as [j|]; cbn.
  - rewrite JobStatus_eqb_refl; reflexivity.
  - reflexivity.
Qed.


(** The job slot alone, the other fields being equal: the four
    combinations of a recorded and a new job pointer. *)
Lemma isStatusChanged_job_slot currentStatus newStatus w :
  v1alpha1.State newStatus = v1alpha1.State currentStatus ->
  v1alpha1.JobManagerDeployment (v1alpha1.Components newStatus) =
    v1alpha1.JobManagerDeployment (v1alpha1.Components currentStatus) ->
  v1alpha1.JobManagerService (v1alpha1.Components newStatus) =
    v1alpha1.JobManagerService (v1alpha1.Components currentStatus) ->
  v1alpha1.TaskManagerDeployment (v1alpha1.Components newStatus) =
    v1alpha1.TaskManagerDeployment (v1alpha1.Components currentStatus) ->
  fst (isStatusChanged currentStatus newStatus w) =
  match v1alpha1.Job (v1alpha1.Components currentStatus),
        v1alpha1.Job (v1alpha1.Components newStatus) with
  | None, None => Returned false
  | None, Some _ => Returned true
  | Some _, None => Panicked
  | Some currentJob, Some newJob =>
      Returned (negb (v1alpha1.JobStatus.eqb newJob currentJob))
  end.
Proof.
  intros Hs Hjmd Hjms Htmd.
  unfold isStatusChanged.
  rewrite Hs, Hjmd, Hjms, Htmd, String.eqb_refl, !ComponentStatus_eqb_refl.
  unfold bind, ret, deref; cbn.
  destruct (v1alpha1.Job (v1alpha1.Components currentStatus)) as [cj|],
           (v1alpha1.Job (v1alpha1.Components newStatus)) as [nj|]; cbn;
    try reflexivity.
  destruct (v1alpha1.JobStatus.eqb nj cj); reflexivity.
Qed.

(** Whatever else changed, a recorded job that is no longer observed makes
    the comparison dereference a nil pointer. *)
Lemma isStatusChanged_job_removed currentStatus newStatus w j :
  v1alpha1.Job (v1alpha1.Components currentStatus) = Some j ->
  v1alpha1.Job (v1alpha1.Components newStatus) = None ->
  fst (isStatusChanged currentStatus newStatus w) = Panicked.
Proof.
  intros Hc Hn.
  unfold isStatusChanged.
  rewrite Hc, Hn.
  unfold bind, ret, deref, log_Info.
  repeat match goal with
         | |- context [if negb ?b then _ else _] => destruct b; cbn
         end; reflexivity.
Qed.

Lemma updateClusterStatusIfChanged_deleted w :
  cluster (observedState (updater w)) = None ->
  updateClusterStatusIfChanged w =
  (Returned None,
   {| updater := updater w; now := now w;
      log := log w ++
             [{| message := "The cluster has been deleted, no status to update";
                 keysAndValues := [] |}];
      updates := updates w |}).
Proof.
  intros Hc.
  unfold updateClusterStatusIfChanged, bind, getUpdater; cbn.
  rewrite Hc; reflexivity.
Qed.

Lemma updateClusterStatusIfChanged_unchanged w c :
  cluster (observedState (updater w)) = Some c ->
  v1alpha1.State (v1alpha1.Status c) =
    v1alpha1.State (deriveState (deriveLocals (observedState (updater w)))) ->
  v1alpha1.Components (v1alpha1.Status c) =
    v1alpha1.Components
      (deriveState (deriveLocals (observedState (updater w)))) ->
  updateClusterStatusIfChanged w =
  (Returned None,
   {| updater := updater w; now := now w;
      log := log w ++
             [{| message := "No status change"; keysAndValues := [] |}];
      updates := updates w |}).
Proof.
  intros Hc Hs Hcomp.
  unfold updateClusterStatusIfChanged.
  rewrite (bind_Returned (c := @getUpdater SpecT) _ (w := w) eq_refl).
  rewrite Hc.
  rewrite (bind_Returned _ (deriveClusterStatus_run w)).
  rewrite Status_DeepCopy_id.
  erewrite bind_Returned
    by (apply isStatusChanged_unchanged; cbn; assumption).
  reflexivity.
Qed.

(** When the comparison reports a change, exactly one update is issued: the
    observed cluster with the derived status, stamped with the current
    time. *)
Lemma updateClusterStatusIfChanged_changed w c w' :
  cluster (observedState (updater w)) = Some c ->
  isStatusChanged
    (v1alpha1.set_LastUpdateTime "" (v1alpha1.Status c))
    (deriveState (deriveLocals (observedState (updater w)))) w =
    (Returned true, w') ->
  let obj :=
    v1alpha1.set_Status
      (v1alpha1.set_LastUpdateTime (now w)
         (deriveState (deriveLocals (observedState (updater w))))) c in
  fst (updateClusterStatusIfChanged w) = Returned (k8sClient (updater w) obj)
  /\ updates (snd (updateClusterStatusIfChanged w)) =
     (updates w ++ [obj])%list.
Proof.
  intros Hc Hchg obj.
  assert (Hu : updater w' = updater w).
  { change w' with (snd (Returned true, w')); rewrite <- Hchg.
    apply keepsUpdater_isStatusChanged. }
  assert (Hrest : now w' = now w /\ updates w' = updates w).
  { clear Hu. revert Hchg. unfold isStatusChanged, bind, ret, deref, log_Info.
    repeat match goal with
           | |- context [if negb ?b then _ else _] => destruct b; cbn
           | |- context [match ?x with Some _ => _ | None => _ end] =>
               destruct x; cbn
           end;
      intros H; inversion H; subst; cbn; auto. }
  destruct Hrest as [Hnow Hupd].
  unfold updateClusterStatusIfChanged.
  rewrite (bind_Returned (c := @getUpdater SpecT) _ (w := w) eq_refl).
  rewrite Hc.
  rewrite (bind_Returned _ (deriveClusterStatus_run w)).
  rewrite Status_DeepCopy_id.
  rewrite (bind_Returned _ Hchg).
  unfold updateClusterStatus, bind, getUpdater, deref, k8sClient_Update,
    log_Info, time_Now_RFC3339; cbn.
  rewrite Hu, Hc, Hnow, Hupd, DeepCopy_id.
  split; reflexivity.
Qed.

(** *** Derivation, by cases on the snapshot *)

Ltac split_world w :=
  destruct w as [[client [c [jm|] [svc|] [tm|] [j|]]] clock lines sent].

Ltac split_replicas :=
  repeat match goal with
         | |- context [replicasMissing ?d] =>
             let E := fresh "E" in
             destruct (replicasMissing d) eqn:E;
             [ apply replicasMissing_true in E
             | apply replicasMissing_false in E ]
         end.

Ltac run_derive :=
  unfold deriveState, deriveLocals, deriveJmDeployment, deriveJmService,
    deriveTmDeployment, deriveJob; cbn;
  split_replicas; cbn.

Lemma deriveState_LastUpdateTime o :
  v1alpha1.LastUpdateTime (deriveState (deriveLocals o)) = "".
Proof.
  destruct o as [c [jm|] [svc|] [tm|] [j|]]; run_derive; reflexivity.
Qed.

Lemma deriveState_tally_bounds o :
  0 <= snd (deriveLocals o) <= 3.
Proof.
  destruct o as [c [jm|] [svc|] [tm|] [j|]]; run_derive; lia.
Qed.

Lemma mandatoryReady_tally o :
  mandatoryReady o <-> snd (deriveLocals o) = 3.
Proof.
  unfold mandatoryReady.
  destruct o as [c [jm|] [svc|] [tm|] [j|]]; run_derive;
    (split;
     [ intros [[d [Hd Hn]] [[s Hs] [d' [Hd' Hn']]]];
       try discriminate; inversion Hd; inversion Hd'; subst;
       try reflexivity; contradiction
     | intros H; try discriminate H; repeat split; eauto ]).
Qed.

Lemma deriveState_State (l : Locals) :
  v1alpha1.State (deriveState l) =
  if snd l <? 3 then v1alpha1.ClusterState.Reconciling
  else v1alpha1.ClusterState.Running.
Proof.
  destruct l as [status n]; unfold deriveState; cbn.
  destruct (n <? 3); reflexivity.
Qed.

(** ** Properties of the derivation *)

(** C2, as amended.  The job entry of the derived status is a pointer: it
    is nil exactly when no job is observed, and otherwise carries the name
    of the job.  The three mandatory entries are structs held by value,
    so they always exist: for an absent sub-resource the entry is the
    zero value (empty name, empty state); for an observed one it carries
    the name of the sub-resource and the state Ready or NotReady, and
    differs from the zero value under the comparison of the updater.  In
    particular the entry of an absent sub-resource compares unequal to
    every NotReady entry. *)
Theorem derive_slot_presence w :
  exists st,
    deriveClusterStatus w = (Returned st, w) /\
    match job (observedState (updater w)) with
    | None => v1alpha1.Job (v1alpha1.Components st) = None
    | Some j =>
        exists js,
          v1alpha1.Job (v1alpha1.Components st) = Some js /\
          v1alpha1.JobStatus.Name js = metav1.Name (batchv1.ObjectMeta j)
    end /\
    match jmDeployment (observedState (updater w)) with
    | None =>
        v1alpha1.JobManagerDeployment (v1alpha1.Components st) =
        v1alpha1.ComponentStatus.zero
    | Some d =>
        let slot := v1alpha1.JobManagerDeployment (v1alpha1.Components st) in
        v1alpha1.ComponentStatus.Name slot =
          metav1.Name (appsv1.ObjectMeta d) /\
        (v1alpha1.ComponentStatus.State slot =
           v1alpha1.ClusterComponentState.Ready \/
         v1alpha1.ComponentStatus.State slot =
           v1alpha1.ClusterComponentState.NotReady) /\
        v1alpha1.ComponentStatus.eqb slot v1alpha1.ComponentStatus.zero =
          false
    end /\
    match jmService (observedState (updater w)) with
    | None =>
        v1alpha1.JobManagerService (v1alpha1.Components st) =
        v1alpha1.ComponentStatus.zero
    | Some sv =>
        let slot := v1alpha1.JobManagerService (v1alpha1.Components st) in
        v1alpha1.ComponentStatus.Name slot =
          metav1.Name (corev1.ObjectMeta sv) /\
        v1alpha1.ComponentStatus.State slot =
          v1alpha1.ClusterComponentState.Ready /\
        v1alpha1.ComponentStatus.eqb slot v1alpha1.ComponentStatus.zero =
          false
    end /\
    match tmDeployment (observedState (updater w)) with
    | None =>
        v1alpha1.TaskManagerDeployment (v1alpha1.Components st) =
        v1alpha1.ComponentStatus.zero
    | Some d =>
        let slot := v1alpha1.TaskManagerDeployment (v1alpha1.Components st) in
        v1alpha1.ComponentStatus.Name slot =
          metav1.Name (appsv1.ObjectMeta d) /\
        (v1alpha1.ComponentStatus.State slot =
           v1alpha1.ClusterComponentState.Ready \/
         v1alpha1.ComponentStatus.State slot =
           v1alpha1.ClusterComponentState.NotReady) /\
        v1alpha1.ComponentStatus.eqb slot v1alpha1.ComponentStatus.zero =
          false
    end /\
    (forall name,
       v1alpha1.ComponentStatus.eqb v1alpha1.ComponentStatus.zero
         {| v1alpha1.ComponentStatus.Name := name;
            v1alpha1.ComponentStatus.State :=
              v1alpha1.ClusterComponentState.NotReady |} = false).
Proof.
  eexists; split; [ apply deriveClusterStatus_run | ].
  assert (Hz : forall n s,
             s = v1alpha1.ClusterComponentState.Ready \/
             s = v1alpha1.ClusterComponentState.NotReady ->
             v1alpha1.ComponentStatus.eqb
               {| v1alpha1.ComponentStatus.Name := n;
                  v1alpha1.ComponentStatus.State := s |}
               v1alpha1.ComponentStatus.zero = false).
  { intros n s [-> | ->]; unfold v1alpha1.ComponentStatus.eqb; cbn;
      apply andb_false_r. }
  split_world w; run_derive;
    repeat match goal with
           | |- _ /\ _ => split
           | |- exists _, _ => eexists
           | |- forall _, _ => intros name
           end;
    try reflexivity; auto;
    try (unfold v1alpha1.ComponentStatus.eqb; cbn; apply andb_false_r).
Qed.

(** C3.  The state of the derived status is Running exactly when all
    three mandatory components are observed and ready, which is exactly
    when its three mandatory entries are in state Ready; otherwise it
    is Reconciling.  Observing another job, or none, leaves the state as
    it is. *)
Theorem derive_state_running_iff w :
  exists st,
    deriveClusterStatus w = (Returned st, w) /\
    (v1alpha1.State st = v1alpha1.ClusterState.Running <->
     mandatoryReady (observedState (updater w))) /\
    (v1alpha1.State st = v1alpha1.ClusterState.Reconciling <->
     ~ mandatoryReady (observedState (updater w))) /\
    (mandatoryReady (observedState (updater w)) <->
     v1alpha1.ComponentStatus.State
       (v1alpha1.JobManagerDeployment (v1alpha1.Components st)) =
       v1alpha1.ClusterComponentState.Ready /\
     v1alpha1.ComponentStatus.State
       (v1alpha1.JobManagerService (v1alpha1.Components st)) =
       v1alpha1.ClusterComponentState.Ready /\
     v1alpha1.ComponentStatus.State
       (v1alpha1.TaskManagerDeployment (v1alpha1.Components st)) =
       v1alpha1.ClusterComponentState.Ready) /\
    (forall j,
       exists st',
         deriveClusterStatus (withJob j w) = (Returned st', withJob j w) /\
         v1alpha1.State st' = v1alpha1.State st).
Proof.
  eexists; split; [ apply deriveClusterStatus_run | ].
  pose proof (mandatoryReady_tally (observedState (updater w))) as Ht.
  pose proof (deriveState_tally_bounds (observedState (updater w))) as Hb.
  rewrite deriveState_State.
  refine (conj (conj _ _) (conj (conj _ _) (conj (conj _ _) _))).
  - destruct (Z.ltb_spec (snd (deriveLocals (observedState (updater w)))) 3);
      [ discriminate | intros _; apply Ht; lia ].
  - intros H; apply Ht in H; rewrite H; reflexivity.
  - destruct (Z.ltb_spec (snd (deriveLocals (observedState (updater w)))) 3);
      [ intros _ H'; apply Ht in H'; lia | discriminate ].
  - intros H.
    destruct (Z.ltb_spec (snd (deriveLocals (observedState (updater w)))) 3);
      [ reflexivity | exfalso; apply H, Ht; lia ].
  - intros H; apply Ht in H. clear Ht Hb. revert H.
    split_world w; run_derive; intros H; try discriminate H;
      repeat split; reflexivity.
  - intros [Hjm [Hsv Htm]]. apply Ht. clear Ht Hb. revert Hjm Hsv Htm.
    split_world w; run_derive; intros Hjm Hsv Htm;
      try reflexivity; discriminate.
  - intros j'.
    eexists; split; [ apply deriveClusterStatus_run | ].
    rewrite deriveState_State.
    replace (snd (deriveLocals (observedState (updater (withJob j' w)))))
      with (snd (deriveLocals (observedState (updater w))));
      [ reflexivity | ].
    clear Ht Hb.
    split_world w; destruct j' as [j'|]; run_derive; reflexivity.
Qed.

(** C6.  For an observed job the derived job state follows the
    counters in a fixed order: Running when some pod is active; else
    Failed when some pod failed; else Succeeded when some pod succeeded;
    else Unknown.  A job with one active and one failed pod is Running. *)
Theorem derive_job_state_priority w j :
  job (observedState (updater w)) = Some j ->
  exists st js,
    deriveClusterStatus w = (Returned st, w) /\
    v1alpha1.Job (v1alpha1.Components st) = Some js /\
    (batchv1.Active (batchv1.Status j) > 0 ->
     v1alpha1.JobStatus.State js = v1alpha1.JobState.Running) /\
    (~ batchv1.Active (batchv1.Status j) > 0 ->
     batchv1.Failed (batchv1.Status j) > 0 ->
     v1alpha1.JobStatus.State js = v1alpha1.JobState.Failed) /\
    (~ batchv1.Active (batchv1.Status j) > 0 ->
     ~ batchv1.Failed (batchv1.Status j) > 0 ->
     batchv1.Succeeded (batchv1.Status j) > 0 ->
     v1alpha1.JobStatus.State js = v1alpha1.JobState.Succeeded) /\
    (~ batchv1.Active (batchv1.Status j) > 0 ->
     ~ batchv1.Failed (batchv1.Status j) > 0 ->
     ~ batchv1.Succeeded (batchv1.Status j) > 0 ->
     v1alpha1.JobStatus.State js = v1alpha1.JobState.Unknown) /\
    (batchv1.Active (batchv1.Status j) = 1 ->
     batchv1.Failed (batchv1.Status j) = 1 ->
     batchv1.Succeeded (batchv1.Status j) = 0 ->
     v1alpha1.JobStatus.State js = v1alpha1.JobState.Running).
Proof.
  intros Hj.
  exists (deriveState (deriveLocals (observedState (updater w)))).
  exists (v1alpha1.JobStatus.set_State (deriveJobState j)
            (v1alpha1.JobStatus.set_Name
               (metav1.Name (batchv1.ObjectMeta j)) v1alpha1.JobStatus.zero)).
  split; [ apply deriveClusterStatus_run | ].
  split.
  - revert Hj.
    destruct w as [[client [c [jm|] [svc|] [tm|] j0]] clock lines sent];
      cbn; intros ->; run_derive; reflexivity.
  - cbn. unfold deriveJobState.
    destruct (Z.gtb_spec (batchv1.Active (batchv1.Status j)) 0);
      destruct (Z.gtb_spec (batchv1.Failed (batchv1.Status j)) 0);
      destruct (Z.gtb_spec (batchv1.Succeeded (batchv1.Status j)) 0);
      repeat split; intros; try reflexivity; lia.
Qed.

(** C7, as amended.  For an observed JobManager or TaskManager deployment
    the derived state is NotReady when fewer replicas are available, or
    fewer are ready, than [Status.Replicas], the number of replicas the
    status of the deployment reports, and the tally of ready components
    is left as it was; otherwise the state is Ready and the tally grows
    by one.  The desired number [Spec.Replicas] is not consulted. *)
Theorem derive_replica_component_state w d :
  (jmDeployment (observedState (updater w)) = Some d ->
   exists st,
     deriveClusterStatus w = (Returned st, w) /\
     (lacksReplicas d ->
      v1alpha1.ComponentStatus.State
        (v1alpha1.JobManagerDeployment (v1alpha1.Components st)) =
        v1alpha1.ClusterComponentState.NotReady /\
      forall l, snd (deriveJmDeployment (Some d) l) = snd l) /\
     (~ lacksReplicas d ->
      v1alpha1.ComponentStatus.State
        (v1alpha1.JobManagerDeployment (v1alpha1.Components st)) =
        v1alpha1.ClusterComponentState.Ready /\
      forall l, snd (deriveJmDeployment (Some d) l) = snd l + 1)) /\
  (tmDeployment (observedState (updater w)) = Some d ->
   exists st,
     deriveClusterStatus w = (Returned st, w) /\
     (lacksReplicas d ->
      v1alpha1.ComponentStatus.State
        (v1alpha1.TaskManagerDeployment (v1alpha1.Components st)) =
        v1alpha1.ClusterComponentState.NotReady /\
      forall l, snd (deriveTmDeployment (Some d) l) = snd l) /\
     (~ lacksReplicas d ->
      v1alpha1.ComponentStatus.State
        (v1alpha1.TaskManagerDeployment (v1alpha1.Components st)) =
        v1alpha1.ClusterComponentState.Ready /\
      forall l, snd (deriveTmDeployment (Some d) l) = snd l + 1)).
Proof.
  assert (Hstep :
    forall b (status : v1alpha1.FlinkSessionClusterStatus) (n : Z),
      replicasMissing d = b ->
      snd (deriveJmDeployment (Some d) (status, n)) =
        (if b then n else n + 1) /\
      snd (deriveTmDeployment (Some d) (status, n)) =
        (if b then n else n + 1)).
  { intros b status n <-; unfold deriveJmDeployment, deriveTmDeployment.
    destruct (replicasMissing d); split; reflexivity. }
  split; intros Hd;
    (eexists; split; [ apply deriveClusterStatus_run | ]);
    (split; intros Hl;
     [ apply replicasMissing_true in Hl
     | apply replicasMissing_false in Hl ]);
    (split; [ | intros [status n]; apply (Hstep _ status n Hl) ]);
    clear Hstep; revert Hd.
  all: destruct w as [[client [c [jm|] [svc|] [tm|] [j|]]] clock lines sent];
    cbn; intros Hd; try discriminate Hd;
    injection Hd as ->;
    unfold deriveState, deriveLocals, deriveJmDeployment, deriveJmService,
      deriveTmDeployment, deriveJob; cbn;
    rewrite ?Hl; cbn;
    repeat match goal with
           | |- context [replicasMissing ?x] =>
               destruct (replicasMissing x); cbn
           end;
    reflexivity.
Qed.

(** ** Properties of the comparison and of the update *)

Lemma issuesNoUpdate_isStatusChanged currentStatus newStatus :
  issuesNoUpdate (@isStatusChanged SpecT currentStatus newStatus).
Proof.
  intros w.
  unfold isStatusChanged, bind, ret, deref, log_Info.
  repeat match goal with
         | |- context [if negb ?b then _ else _] => destruct b; cbn
         | |- context [match ?x with Some _ => _ | None => _ end] =>
             destruct x; cbn
         end; reflexivity.
Qed.

(** Every run of the updater issues no update at all, or exactly one: the
    observed cluster carrying the derived status, stamped with the time of
    the run. *)
Lemma updateClusterStatusIfChanged_updates w :
  updates (snd (updateClusterStatusIfChanged w)) = updates w \/
  exists c,
    cluster (observedState (updater w)) = Some c /\
    updates (snd (updateClusterStatusIfChanged w)) =
    (updates w ++
     [v1alpha1.set_Status
        (v1alpha1.set_LastUpdateTime (now w)
           (deriveState (deriveLocals (observedState (updater w))))) c])%list.
Proof.
  destruct (cluster (observedState (updater w))) as [c|] eqn:Hc.
  - destruct (isStatusChanged
                (v1alpha1.set_LastUpdateTime "" (v1alpha1.Status c))
                (deriveState (deriveLocals (observedState (updater w)))) w)
      as [[[|]|] w'] eqn:Hchg.
    + right; exists c; split; [ reflexivity | ].
      apply (updateClusterStatusIfChanged_changed w Hc Hchg).
    + left.
      pose proof (issuesNoUpdate_isStatusChanged
                    (v1alpha1.set_LastUpdateTime "" (v1alpha1.Status c))
                    (deriveState (deriveLocals (observedState (updater w))))
                    w) as Hn.
      rewrite Hchg in Hn; cbn in Hn.
      unfold updateClusterStatusIfChanged.
      rewrite (bind_Returned (c := @getUpdater SpecT) _ (w := w) eq_refl).
      rewrite Hc.
      rewrite (bind_Returned _ (deriveClusterStatus_run w)).
      rewrite Status_DeepCopy_id.
      rewrite (bind_Returned _ Hchg).
      cbn. exact Hn.
    + left.
      pose proof (issuesNoUpdate_isStatusChanged
                    (v1alpha1.set_LastUpdateTime "" (v1alpha1.Status c))
                    (deriveState (deriveLocals (observedState (updater w))))
                    w) as Hn.
      rewrite Hchg in Hn; cbn in Hn.
      unfold updateClusterStatusIfChanged.
      rewrite (bind_Returned (c := @getUpdater SpecT) _ (w := w) eq_refl).
      rewrite Hc.
      rewrite (bind_Returned _ (deriveClusterStatus_run w)).
      rewrite Status_DeepCopy_id.
      rewrite (bind_Panicked _ Hchg).
      cbn. exact Hn.
  - left. rewrite (updateClusterStatusIfChanged_deleted w Hc); reflexivity.
Qed.

(** C4.  When the cluster is absent from the observed state, the updater
    returns nil and issues no update, whatever components are observed. *)
Theorem deleted_cluster_is_noop w :
  cluster (observedState (updater w)) = None ->
  fst (updateClusterStatusIfChanged w) = Returned None /\
  updates (snd (updateClusterStatusIfChanged w)) = updates w.
Proof.
  intros Hc.
  rewrite (updateClusterStatusIfChanged_deleted w Hc).
  split; reflexivity.
Qed.


(** C8.  When the status recorded on the cluster already has the state
    and the components of the status derived from the snapshot, the
    updater returns nil and issues no update.  Hence, once the derived
    status has been recorded, under whatever timestamp, a further run on
    the same components issues no update. *)
Theorem unchanged_status_not_persisted w c st :
  cluster (observedState (updater w)) = Some c ->
  fst (deriveClusterStatus w) = Returned st ->
  (v1alpha1.State (v1alpha1.Status c) = v1alpha1.State st ->
   v1alpha1.Components (v1alpha1.Status c) = v1alpha1.Components st ->
   fst (updateClusterStatusIfChanged w) = Returned None /\
   updates (snd (updateClusterStatusIfChanged w)) = updates w) /\
  (forall t,
     let recorded :=
       v1alpha1.set_Status (v1alpha1.set_LastUpdateTime t st) c in
     let w2 := withCluster (Some recorded) w in
     fst (updateClusterStatusIfChanged w2) = Returned None /\
     updates (snd (updateClusterStatusIfChanged w2)) = updates w2).
Proof.
  intros Hc Hder.
  rewrite deriveClusterStatus_run in Hder; cbn in Hder.
  injection Hder as Hder.
  split.
  - intros Hs Hcomp.
    rewrite (@updateClusterStatusIfChanged_unchanged w c Hc);
      [ split; reflexivity | | ]; rewrite Hder; assumption.
  - intros t recorded w2.
    assert (Hd2 : deriveState (deriveLocals (observedState (updater w2))) =
                  st) by (rewrite <- Hder; reflexivity).
    rewrite (@updateClusterStatusIfChanged_unchanged w2 recorded eq_refl);
      [ split; reflexivity | | ]; rewrite Hd2; reflexivity.
Qed.

(** C9.  A run of the updater leaves the updater, and with it the whole
    observed state, as it found it: the recorded status keeps its
    timestamp.  When a status is written, the API server receives one
    object, which has that status and the metadata and the spec of the
    observed cluster. *)
Theorem observed_state_frame w :
  updater (snd (updateClusterStatusIfChanged w)) = updater w /\
  (forall status c,
     cluster (observedState (updater w)) = Some c ->
     exists obj,
       updateClusterStatus status w =
       (Returned (k8sClient (updater w) obj),
        {| updater := updater w; now := now w; log := log w;
           updates := updates w ++ [obj] |}) /\
       v1alpha1.Status obj = status /\
       v1alpha1.Spec obj = v1alpha1.Spec c /\
       v1alpha1.ObjectMeta obj = v1alpha1.ObjectMeta c).
Proof.
  split.
  - apply keepsUpdater_updateClusterStatusIfChanged.
  - intros status c Hc.
    exists (v1alpha1.set_Status status c).
    split; [ apply updateClusterStatus_run; exact Hc | ].
    repeat split.
Qed.

(** C10.  The derived status is a function of the observed state alone:
    two runs on equal observed states return equal statuses, whatever the
    clock, the log, the client and the calls already issued, and a run
    leaves everything as it found it.  The derived status carries no
    timestamp; the time of the run appears only in the object that the
    updater sends when it persists a change. *)
Theorem derive_deterministic w1 w2 :
  observedState (updater w1) = observedState (updater w2) ->
  fst (deriveClusterStatus w1) = fst (deriveClusterStatus w2) /\
  snd (deriveClusterStatus w1) = w1 /\
  snd (deriveClusterStatus w2) = w2 /\
  (exists st,
     fst (deriveClusterStatus w1) = Returned st /\
     v1alpha1.LastUpdateTime st = "") /\
  (updates (snd (updateClusterStatusIfChanged w1)) = updates w1 \/
   exists obj,
     updates (snd (updateClusterStatusIfChanged w1)) =
       (updates w1 ++ [obj])%list /\
     v1alpha1.LastUpdateTime (v1alpha1.Status obj) = now w1).
Proof.
  intros Ho.
  rewrite !deriveClusterStatus_run; cbn [fst snd].
  rewrite Ho.
  split; [ reflexivity | split; [ reflexivity | split; [ reflexivity | ] ] ].
  split.
  - eexists; split; [ reflexivity | apply deriveState_LastUpdateTime ].
  - destruct (updateClusterStatusIfChanged_updates w1) as [H | [c [_ H]]].
    + left; exact H.
    + right; eexists; split; [ exact H | reflexivity ].
Qed.

(** ** Further properties of the comparison *)

(** The outcome of the comparison, field by field. *)
Lemma isStatusChanged_outcome currentStatus newStatus w :
  let differ :=
    negb (String.eqb (v1alpha1.State newStatus)
            (v1alpha1.State currentStatus)) ||
    negb (v1alpha1.ComponentStatus.eqb
            (v1alpha1.JobManagerDeployment (v1alpha1.Components newStatus))
            (v1alpha1.JobManagerDeployment
               (v1alpha1.Components currentStatus))) ||
    negb (v1alpha1.ComponentStatus.eqb
            (v1alpha1.JobManagerService (v1alpha1.Components newStatus))
            (v1alpha1.JobManagerService
               (v1alpha1.Components currentStatus))) ||
    negb (v1alpha1.ComponentStatus.eqb
            (v1alpha1.TaskManagerDeployment (v1alpha1.Components newStatus))
            (v1alpha1.TaskManagerDeployment
               (v1alpha1.Components currentStatus))) in
  fst (isStatusChanged currentStatus newStatus w) =
  match v1alpha1.Job (v1alpha1.Components currentStatus),
        v1alpha1.Job (v1alpha1.Components newStatus) with
  | Some _, None => Panicked
  | Some currentJob, Some newJob =>
      Returned (differ || negb (v1alpha1.JobStatus.eqb newJob currentJob))
  | None, Some _ => Returned true
  | None, None => Returned differ
  end.
Proof.
  unfold isStatusChanged, bind, ret, deref, log_Info.
  destruct (String.eqb (v1alpha1.State newStatus)
              (v1alpha1.State currentStatus));
    destruct (v1alpha1.ComponentStatus.eqb
                (v1alpha1.JobManagerDeployment
                   (v1alpha1.Components newStatus))
                (v1alpha1.JobManagerDeployment
                   (v1alpha1.Components currentStatus)));
    destruct (v1alpha1.ComponentStatus.eqb
                (v1alpha1.JobManagerService (v1alpha1.Components newStatus))
                (v1alpha1.JobManagerService
                   (v1alpha1.Components currentStatus)));
    destruct (v1alpha1.ComponentStatus.eqb
                (v1alpha1.TaskManagerDeployment
                   (v1alpha1.Components newStatus))
                (v1alpha1.TaskManagerDeployment
                   (v1alpha1.Components currentStatus)));
    destruct (v1alpha1.Job (v1alpha1.Components currentStatus)) as [cj|];
    destruct (v1alpha1.Job (v1alpha1.Components newStatus)) as [nj|];
    cbn; try reflexivity;
    destruct (v1alpha1.JobStatus.eqb nj cj); reflexivity.
Qed.

(** What a run of the comparison leaves behind: lines appended to the
    log, nothing else. *)
Lemma isStatusChanged_world currentStatus newStatus w :
  exists lines,
    snd (isStatusChanged currentStatus newStatus w) =
    {| updater := updater w; now := now w;
       log := log w ++ lines; updates := updates w |}.
Proof.
  unfold isStatusChanged, bind, ret, deref, log_Info.
  repeat match goal with
         | |- context [if negb ?b then _ else _] => destruct b; cbn
         | |- context [match ?x with Some _ => _ | None => _ end] =>
             destruct x; cbn
         end;
    rewrite <- ?app_assoc;
    solve [ eexists; reflexivity
          | exists []; rewrite app_nil_r; destruct w; reflexivity ].
Qed.

Lemma deriveState_Job o :
  v1alpha1.Job (v1alpha1.Components (deriveState (deriveLocals o))) = None <->
  job o = None.
Proof.
  destruct o as [c [jm|] [svc|] [tm|] [j|]]; run_derive;
    split; intros H; try discriminate H; reflexivity.
Qed.

Lemma deriveState_State_nonempty o :
  v1alpha1.State (deriveState (deriveLocals o)) <> "".
Proof.
  rewrite deriveState_State.
  destruct (snd (deriveLocals o) <? 3); discriminate.
Qed.

(** The outcome and the updates of a run on an observed cluster, by the
    outcome of the comparison. *)
Lemma updateClusterStatusIfChanged_cases w c :
  cluster (observedState (updater w)) = Some c ->
  let derived := deriveState (deriveLocals (observedState (updater w))) in
  let obj :=
    v1alpha1.set_Status (v1alpha1.set_LastUpdateTime (now w) derived) c in
  (fst (updateClusterStatusIfChanged w),
   updates (snd (updateClusterStatusIfChanged w))) =
  match fst (isStatusChanged
               (v1alpha1.set_LastUpdateTime "" (v1alpha1.Status c))
               derived w) with
  | Returned true =>
      (Returned (k8sClient (updater w) obj), (updates w ++ [obj])%list)
  | Returned false => (Returned None, updates w)
  | Panicked => (Panicked, updates w)
  end.
Proof.
  intros Hc derived obj.
  pose proof (issuesNoUpdate_isStatusChanged
                (v1alpha1.set_LastUpdateTime "" (v1alpha1.Status c))
                derived w) as Hn.
  destruct (isStatusChanged
              (v1alpha1.set_LastUpdateTime "" (v1alpha1.Status c))
              derived w) as [[[|]|] w'] eqn:Hchg; cbn [fst snd] in *.
  - destruct (updateClusterStatusIfChanged_changed w Hc Hchg) as [H1 H2].
    fold derived in H1, H2. fold obj in H1, H2.
    rewrite H1, H2; reflexivity.
  - unfold updateClusterStatusIfChanged.
    rewrite (bind_Returned (c := @getUpdater SpecT) _ (w := w) eq_refl).
    rewrite Hc.
    rewrite (bind_Returned _ (deriveClusterStatus_run w)).
    rewrite Status_DeepCopy_id.
    fold derived. rewrite (bind_Returned _ Hchg).
    cbn. rewrite Hn; reflexivity.
  - unfold updateClusterStatusIfChanged.
    rewrite (bind_Returned (c := @getUpdater SpecT) _ (w := w) eq_refl).
    rewrite Hc.
    rewrite (bind_Returned _ (deriveClusterStatus_run w)).
    rewrite Status_DeepCopy_id.
    fold derived. rewrite (bind_Panicked _ Hchg).
    cbn. rewrite Hn; reflexivity.
Qed.

Lemma isStatusChanged_false_inv currentStatus newStatus w :
  fst (isStatusChanged currentStatus newStatus w) = Returned false ->
  v1alpha1.State currentStatus = v1alpha1.State newStatus /\
  v1alpha1.Components currentStatus = v1alpha1.Components newStatus.
Proof.
  rewrite isStatusChanged_outcome.
  destruct currentStatus as [cs [cjmd cjms ctmd cjob] ct],
           newStatus as [ns [njmd njms ntmd njob] nt]; cbn.
  destruct cjob as [cj|], njob as [nj|]; intros H; try discriminate H;
    injection H as H;
    repeat match type of H with
           | (_ || _)%bool = false =>
               let H' := fresh "H" in
               apply orb_false_iff in H; destruct H as [H H']
           end;
    repeat match goal with
           | H : negb _ = false |- _ => apply negb_false_iff in H
           | H : String.eqb _ _ = true |- _ => apply String.eqb_eq in H
           | H : v1alpha1.ComponentStatus.eqb _ _ = true |- _ =>
               apply ComponentStatus_eqb_eq in H
           | H : v1alpha1.JobStatus.eqb _ _ = true |- _ =>
               apply JobStatus_eqb_eq in H
           end;
    subst; split; reflexivity.
Qed.

Lemma isStatusChanged_panic_inv currentStatus newStatus w :
  fst (isStatusChanged currentStatus newStatus w) = Panicked ->
  (exists j, v1alpha1.Job (v1alpha1.Components currentStatus) = Some j) /\
  v1alpha1.Job (v1alpha1.Components newStatus) = None.
Proof.
  rewrite isStatusChanged_outcome.
  destruct (v1alpha1.Job (v1alpha1.Components currentStatus)) as [cj|],
           (v1alpha1.Job (v1alpha1.Components newStatus)) as [nj|];
    cbn; intros H; try discriminate H.
  split; [ exists cj | ]; reflexivity.
Qed.

(** X1.  The comparison returns false exactly when the two statuses have
    the same state and the same components: no difference in a state, a
    name or the job goes unreported. *)
Theorem isStatusChanged_false_iff_equal currentStatus newStatus w :
  fst (isStatusChanged currentStatus newStatus w) = Returned false <->
  v1alpha1.State currentStatus = v1alpha1.State newStatus /\
  v1alpha1.Components currentStatus = v1alpha1.Components newStatus.
Proof.
  split.
  - apply isStatusChanged_false_inv.
  - intros [Hs Hc].
    rewrite (isStatusChanged_unchanged _ _ w Hs Hc); reflexivity.
Qed.

(** X2.  The comparison panics exactly when the recorded status has a job
    and the new status has none; in every other case it returns. *)
Theorem isStatusChanged_panics_iff currentStatus newStatus w :
  fst (isStatusChanged currentStatus newStatus w) = Panicked <->
  (exists j, v1alpha1.Job (v1alpha1.Components currentStatus) = Some j) /\
  v1alpha1.Job (v1alpha1.Components newStatus) = None.
Proof.
  split.
  - apply isStatusChanged_panic_inv.
  - intros [[j Hj] Hn].
    exact (isStatusChanged_job_removed currentStatus newStatus w Hj Hn).
Qed.

(** X3.  The comparison only appends to the log and touches nothing else:
    it appends no line when it returns false, at least one when it returns
    true, and never more than five. *)
Theorem isStatusChanged_effects currentStatus newStatus w :
  exists lines,
    snd (isStatusChanged currentStatus newStatus w) =
    {| updater := updater w; now := now w;
       log := log w ++ lines; updates := updates w |} /\
    (fst (isStatusChanged currentStatus newStatus w) = Returned false ->
     lines = []) /\
    (fst (isStatusChanged currentStatus newStatus w) = Returned true ->
     lines <> []) /\
    (length lines <= 5)%nat.
Proof.
  unfold isStatusChanged, bind, ret, deref, log_Info.
  repeat match goal with
         | |- context [if negb ?b then _ else _] => destruct b; cbn
         | |- context [match ?x with Some _ => _ | None => _ end] =>
             destruct x; cbn
         end;
    rewrite <- ?app_assoc;
    first
      [ eexists; split; [ reflexivity | ];
        split; [ intros H; discriminate H | ];
        split; [ intros _; cbn; discriminate | cbn; lia ]
      | exists []; rewrite app_nil_r;
        split; [ destruct w; reflexivity | ];
        split; [ reflexivity | ];
        split; [ intros H; discriminate H | cbn; lia ] ].
Qed.

(** ** Further properties of the updater *)

(** X4.  The updater panics exactly when the cluster is observed, its
    recorded status has a job, and no job is observed; on every other
    snapshot it returns. *)
Theorem updateClusterStatusIfChanged_panics_iff w :
  fst (updateClusterStatusIfChanged w) = Panicked <->
  exists c j,
    cluster (observedState (updater w)) = Some c /\
    v1alpha1.Job (v1alpha1.Components (v1alpha1.Status c)) = Some j /\
    job (observedState (updater w)) = None.
Proof.
  destruct (cluster (observedState (updater w))) as [c|] eqn:Hc.
  - pose proof (updateClusterStatusIfChanged_cases w Hc) as Hcases.
    cbn zeta in Hcases.
    pose proof (@isStatusChanged_panic_inv
                  (v1alpha1.set_LastUpdateTime "" (v1alpha1.Status c))
                  (deriveState (deriveLocals (observedState (updater w))))
                  w) as Hinv.
    assert (Hrem : forall j,
              v1alpha1.Job (v1alpha1.Components (v1alpha1.Status c)) =
                Some j ->
              job (observedState (updater w)) = None ->
              fst (isStatusChanged
                     (v1alpha1.set_LastUpdateTime "" (v1alpha1.Status c))
                     (deriveState
                        (deriveLocals (observedState (updater w)))) w) =
              Panicked).
    { intros j Hj Hn.
      apply (@isStatusChanged_job_removed _ _ w j); [ exact Hj | ].
      apply deriveState_Job; exact Hn. }
    cbn [v1alpha1.set_LastUpdateTime v1alpha1.Components] in Hinv.
    rewrite deriveState_Job in Hinv.
    destruct (fst (isStatusChanged
                     (v1alpha1.set_LastUpdateTime "" (v1alpha1.Status c))
                     (deriveState
                        (deriveLocals (observedState (updater w)))) w))
      as [[|]|]; injection Hcases as Hf _; rewrite Hf; split.
    + intros H; discriminate H.
    + intros [c' [j [Hc' [Hj Hn]]]]; injection Hc' as <-.
      discriminate (Hrem j Hj Hn).
    + intros H; discriminate H.
    + intros [c' [j [Hc' [Hj Hn]]]]; injection Hc' as <-.
      discriminate (Hrem j Hj Hn).
    + intros _. destruct (Hinv eq_refl) as [[j Hj] Hn].
      exists c, j; repeat split; assumption.
    + reflexivity.
  - rewrite (updateClusterStatusIfChanged_deleted w Hc); cbn.
    split; [ intros H; discriminate H | ].
    intros [c [j [Hc' _]]]; discriminate Hc'.
Qed.

(** X5.  When the recorded status differs from the derived one in its
    state or in a component, and the run does not hit the removed job, the
    updater issues exactly one update, the observed cluster with the
    derived status stamped with the time of the run, and returns the
    answer of the client as it is, error or not. *)
Theorem changed_status_persisted_once w c :
  cluster (observedState (updater w)) = Some c ->
  let derived := deriveState (deriveLocals (observedState (updater w))) in
  let obj :=
    v1alpha1.set_Status (v1alpha1.set_LastUpdateTime (now w) derived) c in
  (v1alpha1.State (v1alpha1.Status c) <> v1alpha1.State derived \/
   v1alpha1.Components (v1alpha1.Status c) <> v1alpha1.Components derived) ->
  (v1alpha1.Job (v1alpha1.Components (v1alpha1.Status c)) = None \/
   job (observedState (updater w)) <> None) ->
  fst (updateClusterStatusIfChanged w) =
    Returned (k8sClient (updater w) obj) /\
  updates (snd (updateClusterStatusIfChanged w)) =
    (updates w ++ [obj])%list.
Proof.
  intros Hc derived obj Hdiff Hjob.
  pose proof (updateClusterStatusIfChanged_cases w Hc) as Hcases.
  cbn zeta in Hcases. fold derived in Hcases. fold obj in Hcases.
  pose proof (@isStatusChanged_panic_inv
                (v1alpha1.set_LastUpdateTime "" (v1alpha1.Status c))
                derived w) as Hp.
  pose proof (@isStatusChanged_false_inv
                (v1alpha1.set_LastUpdateTime "" (v1alpha1.Status c))
                derived w) as Hf.
  cbn [v1alpha1.set_LastUpdateTime v1alpha1.Components v1alpha1.State]
    in Hp, Hf.
  unfold derived in Hp at 2. rewrite deriveState_Job in Hp.
  destruct (fst (isStatusChanged
                   (v1alpha1.set_LastUpdateTime "" (v1alpha1.Status c))
                   derived w)) as [[|]|].
  - injection Hcases as H1 H2; split; assumption.
  - exfalso. destruct (Hf eq_refl) as [Hs Hcomp].
    destruct Hdiff as [Hd | Hd]; apply Hd; assumption.
  - exfalso. destruct (Hp eq_refl) as [[j Hj] Hn].
    destruct Hjob as [Hj' | Hj']; [ congruence | contradiction ].
Qed.

(** X6.  On a cluster whose recorded status is still the zero value, as
    after its creation, the updater always issues exactly one update and
    returns the answer of the client: the derived state is never empty. *)
Theorem fresh_cluster_status_written w c :
  cluster (observedState (updater w)) = Some c ->
  v1alpha1.Status c = v1alpha1.zeroStatus ->
  exists obj,
    fst (updateClusterStatusIfChanged w) =
      Returned (k8sClient (updater w) obj) /\
    updates (snd (updateClusterStatusIfChanged w)) =
      (updates w ++ [obj])%list /\
    v1alpha1.LastUpdateTime (v1alpha1.Status obj) = now w /\
    v1alpha1.State (v1alpha1.Status obj) <> "".
Proof.
  intros Hc Hz.
  pose proof (updateClusterStatusIfChanged_cases w Hc) as Hcases.
  cbn zeta in Hcases.
  pose proof (isStatusChanged_outcome
                (v1alpha1.set_LastUpdateTime "" (v1alpha1.Status c))
                (deriveState (deriveLocals (observedState (updater w))))
                w) as Ho.
  cbn zeta in Ho. rewrite Hz in Ho.
  cbn [v1alpha1.set_LastUpdateTime v1alpha1.Components v1alpha1.State
       v1alpha1.zeroStatus v1alpha1.Job] in Ho.
  pose proof (deriveState_State_nonempty (observedState (updater w))) as Hne.
  assert (He : String.eqb
                 (v1alpha1.State
                    (deriveState (deriveLocals (observedState (updater w)))))
                 "" = false)
    by (apply String.eqb_neq; exact Hne).
  rewrite He in Ho; cbn in Ho.
  assert (Ht : fst (isStatusChanged
                      (v1alpha1.set_LastUpdateTime "" (v1alpha1.Status c))
                      (deriveState
                         (deriveLocals (observedState (updater w)))) w) =
               Returned true).
  { rewrite Hz; rewrite Ho.
    destruct (v1alpha1.Job
                (v1alpha1.Components
                   (deriveState
                      (deriveLocals (observedState (updater w))))));
      reflexivity. }
  rewrite Ht in Hcases. injection Hcases as H1 H2.
  eexists; split; [ exact H1 | split; [ exact H2 | ] ].
  split; [ reflexivity | exact Hne ].
Qed.

(** X7.  When one of the three mandatory components is not observed, the
    derived state is Reconciling, however ready the other two are. *)
Theorem absent_component_reconciling w :
  jmDeployment (observedState (updater w)) = None \/
  jmService (observedState (updater w)) = None \/
  tmDeployment (observedState (updater w)) = None ->
  exists st,
    deriveClusterStatus w = (Returned st, w) /\
    v1alpha1.State st = v1alpha1.ClusterState.Reconciling.
Proof.
  intros Habs.
  eexists; split; [ apply deriveClusterStatus_run | ].
  rewrite deriveState_State.
  pose proof (mandatoryReady_tally (observedState (updater w))) as Ht.
  destruct (Z.ltb_spec (snd (deriveLocals (observedState (updater w)))) 3)
    as [Hlt | Hge]; [ reflexivity | exfalso ].
  pose proof (deriveState_tally_bounds (observedState (updater w))) as Hb.
  assert (Hr : mandatoryReady (observedState (updater w)))
    by (apply Ht; lia).
  destruct Hr as [[d [Hd _]] [[sv Hsv] [d' [Hd' _]]]].
  destruct Habs as [H | [H | H]]; congruence.
Qed.

(** X8.  A run of the updater keeps the clock and only appends to the
    log; a run that returns has appended at least one line. *)
Theorem updateClusterStatusIfChanged_log w :
  exists lines,
    log (snd (updateClusterStatusIfChanged w)) = (log w ++ lines)%list /\
    now (snd (updateClusterStatusIfChanged w)) = now w /\
    (fst (updateClusterStatusIfChanged w) <> Panicked -> lines <> []).
Proof.
  unfold updateClusterStatusIfChanged, updateClusterStatus,
    deriveClusterStatus, isStatusChanged, bind, ret, deref, getUpdater,
    log_Info, time_Now_RFC3339, k8sClient_Update.
  destruct (cluster (observedState (updater w))) as [c|] eqn:Hc; cbn.
  - repeat match goal with
           | |- context [if negb ?b then _ else _] => destruct b; cbn
           | |- context [match v1alpha1.Job ?x with
                         | Some _ => _ | None => _ end] =>
               destruct (v1alpha1.Job x); cbn
           end;
      rewrite ?Hc; cbn; rewrite <- ?app_assoc;
      first
        [ eexists; split; [ reflexivity | ];
          split; [ reflexivity | intros _; cbn; discriminate ]
        | exists []; rewrite app_nil_r;
          split; [ reflexivity | ];
          split; [ reflexivity | intros H; exfalso; apply H; reflexivity ] ].
  - eexists; split; [ reflexivity | ].
    split; [ reflexivity | intros _; discriminate ].
Qed.

(** X9.  Readiness is measured against the replicas the deployment
    status reports, so deployments whose status reports no replicas yet
    are Ready: with the service observed and both deployments at zero
    replicas, the derived state is Running. *)
Theorem idle_deployments_running w jm sv tm :
  jmDeployment (observedState (updater w)) = Some jm ->
  jmService (observedState (updater w)) = Some sv ->
  tmDeployment (observedState (updater w)) = Some tm ->
  appsv1.Replicas (appsv1.Status jm) = 0 ->
  0 <= appsv1.AvailableReplicas (appsv1.Status jm) ->
  0 <= appsv1.ReadyReplicas (appsv1.Status jm) ->
  appsv1.Replicas (appsv1.Status tm) = 0 ->
  0 <= appsv1.AvailableReplicas (appsv1.Status tm) ->
  0 <= appsv1.ReadyReplicas (appsv1.Status tm) ->
  exists st,
    deriveClusterStatus w = (Returned st, w) /\
    v1alpha1.State st = v1alpha1.ClusterState.Running.
Proof.
  intros Hjm Hsv Htm Hr1 Ha1 Hy1 Hr2 Ha2 Hy2.
  eexists; split; [ apply deriveClusterStatus_run | ].
  rewrite deriveState_State.
  assert (Hm : mandatoryReady (observedState (updater w))).
  { split; [ | split ].
    - exists jm; split; [ exact Hjm | unfold lacksReplicas; lia ].
    - exists sv; exact Hsv.
    - exists tm; split; [ exact Htm | unfold lacksReplicas; lia ]. }
  apply mandatoryReady_tally in Hm.
  rewrite Hm; reflexivity.
Qed.

(** X10.  The timestamp of the recorded status has no influence on a run:
    with any other timestamp recorded on the cluster, the updater ends
    the same way and the API server receives the same objects. *)
Theorem recorded_timestamp_ignored w c t :
  cluster (observedState (updater w)) = Some c ->
  let c' :=
    v1alpha1.set_Status
      (v1alpha1.set_LastUpdateTime t (v1alpha1.Status c)) c in
  let w' := withCluster (Some c') w in
  fst (updateClusterStatusIfChanged w') = fst (updateClusterStatusIfChanged w)
  /\
  updates (snd (updateClusterStatusIfChanged w')) =
  updates (snd (updateClusterStatusIfChanged w)).
Proof.
  intros Hc c' w'.
  pose proof (updateClusterStatusIfChanged_cases w Hc) as H.
  pose proof (@updateClusterStatusIfChanged_cases w' c' eq_refl) as H'.
  cbn zeta in H, H'.
  assert (Hi :
    fst (isStatusChanged
           (v1alpha1.set_LastUpdateTime "" (v1alpha1.Status c'))
           (deriveState (deriveLocals (observedState (updater w')))) w') =
    fst (isStatusChanged
           (v1alpha1.set_LastUpdateTime "" (v1alpha1.Status c))
           (deriveState (deriveLocals (observedState (updater w)))) w)).
  { rewrite !isStatusChanged_outcome; reflexivity. }
  rewrite Hi in H'.
  assert (Hpair :
    (fst (updateClusterStatusIfChanged w'),
     updates (snd (updateClusterStatusIfChanged w'))) =
    (fst (updateClusterStatusIfChanged w),
     updates (snd (updateClusterStatusIfChanged w)))).
  { rewrite H, H'.
    destruct (fst (isStatusChanged
                     (v1alpha1.set_LastUpdateTime "" (v1alpha1.Status c))
                     (deriveState
                        (deriveLocals (observedState (updater w)))) w))
      as [[|]|]; reflexivity. }
  injection Hpair as H1 H2; split; assumption.
Qed.

End properties.

(** ** The properties on the sample objects *)

(** C1 (defect).  The recorded status names a job and the new status has
    none: the comparison dereferences the nil job of the new status and
    panics instead of reporting a change, and so does the updater on a
    snapshot whose job has gone since the status was recorded. *)
Theorem isStatusChanged_recorded_job_gone_panics :
  fst (isStatusChanged (sampleStatus (Some sampleJobStatus) "")
         (sampleStatus None "")
         (sampleWorld (sampleObservedBare None))) = Panicked /\
  fst (updateClusterStatusIfChanged
         (sampleWorld
            (sampleObserved
               (Some (sampleCluster
                        (sampleStatus (Some sampleJobStatus)
                           "2019-09-30T10:00:00Z")))
               (Some sampleTmReady) None))) = Panicked.
Proof. split; vm_compute; reflexivity. Qed.

(** C2, as stated, fails: with no JobManager deployment observed, the
    derived entry of the JobManager deployment is the zero value of the
    struct. *)
Lemma derive_absent_slot_is_zero_value :
  ~ (forall w : World string,
       jmDeployment (observedState (updater w)) = None ->
       forall st,
         fst (deriveClusterStatus w) = Returned st ->
         v1alpha1.JobManagerDeployment (v1alpha1.Components st) <>
         v1alpha1.ComponentStatus.zero).
Proof.
  intros H.
  apply (H (sampleWorld
              (sampleObservedBare (Some (sampleCluster v1alpha1.zeroStatus))))
           eq_refl _ eq_refl).
  reflexivity.
Qed.

(** C7, as stated, fails: a JobManager deployment with three desired
    replicas of which none is available yet, its status reporting no
    replica at all, is derived Ready, not NotReady. *)
Lemma derive_desired_replicas_not_compared :
  ~ (forall (w : World string) d desired st,
       jmDeployment (observedState (updater w)) = Some d ->
       appsv1.DeploymentSpec.Replicas (appsv1.Spec d) = Some desired ->
       appsv1.AvailableReplicas (appsv1.Status d) < desired \/
       appsv1.ReadyReplicas (appsv1.Status d) < desired ->
       fst (deriveClusterStatus w) = Returned st ->
       v1alpha1.ComponentStatus.State
         (v1alpha1.JobManagerDeployment (v1alpha1.Components st)) =
       v1alpha1.ClusterComponentState.NotReady).
Proof.
  intros H.
  assert (Hlt : appsv1.AvailableReplicas (appsv1.Status sampleJmStarting) < 3
                \/ appsv1.ReadyReplicas (appsv1.Status sampleJmStarting) < 3)
    by (left; cbn; lia).
  pose proof
    (fun st =>
       H (sampleWorld
            {| cluster := None; jmDeployment := Some sampleJmStarting;
               jmService := Some sampleService;
               tmDeployment := Some sampleTmReady; job := None |})
         sampleJmStarting 3 st eq_refl eq_refl Hlt) as Hst.
  specialize (Hst _ eq_refl).
  discriminate Hst.
Qed.

Lemma deleted_cluster_is_noop_witness :
  let w :=
    sampleWorldConflict (sampleObserved None (Some sampleTm) (Some sampleJob))
  in
  cluster (observedState (updater w)) = None /\
  fst (updateClusterStatusIfChanged w) = Returned None /\
  updates (snd (updateClusterStatusIfChanged w)) = updates w.
Proof.
  intros w; split; [ reflexivity | ].
  apply (@deleted_cluster_is_noop string w); reflexivity.
Defined.


Lemma derive_job_state_priority_witness :
  let w := sampleWorld (sampleObserved None (Some sampleTm) (Some sampleJob)) in
  exists st js,
    deriveClusterStatus w = (Returned st, w) /\
    v1alpha1.Job (v1alpha1.Components st) = Some js /\
    v1alpha1.JobStatus.State js = v1alpha1.JobState.Running.
Proof.
  intros w.
  destruct (@derive_job_state_priority string w sampleJob eq_refl)
    as [st [js [Hrun [Hjob [_ [_ [_ [_ Hex]]]]]]]].
  exists st, js.
  split; [ exact Hrun | split; [ exact Hjob | ] ].
  apply Hex; reflexivity.
Defined.

Lemma derive_replica_component_state_witness :
  let w := sampleWorld (sampleObserved None (Some sampleTm) None) in
  exists st,
    deriveClusterStatus w = (Returned st, w) /\
    v1alpha1.ComponentStatus.State
      (v1alpha1.TaskManagerDeployment (v1alpha1.Components st)) =
    v1alpha1.ClusterComponentState.NotReady.
Proof.
  intros w.
  destruct (proj2 (@derive_replica_component_state string w sampleTm) eq_refl)
    as [st [Hrun [Hlack _]]].
  exists st; split; [ exact Hrun | ].
  apply Hlack.
  left; cbn; lia.
Defined.

Lemma unchanged_status_not_persisted_witness :
  let w :=
    sampleWorld
      (sampleObserved
         (Some (sampleCluster (sampleStatus None "2019-09-30T10:00:00Z")))
         (Some sampleTmReady) None) in
  fst (updateClusterStatusIfChanged w) = Returned None /\
  updates (snd (updateClusterStatusIfChanged w)) = [].
Proof.
  intros w.
  apply (proj1 (@unchanged_status_not_persisted string w
                  (sampleCluster (sampleStatus None "2019-09-30T10:00:00Z"))
                  (sampleStatus None "") eq_refl eq_refl));
    reflexivity.
Defined.

Lemma observed_state_frame_witness :
  let c := sampleCluster (sampleStatus None "2019-09-30T10:00:00Z") in
  let w := sampleWorld (sampleObserved (Some c) (Some sampleTm) None) in
  exists obj,
    fst (updateClusterStatus v1alpha1.zeroStatus w) = Returned None /\
    updates (snd (updateClusterStatus v1alpha1.zeroStatus w)) = [obj] /\
    v1alpha1.Status obj = v1alpha1.zeroStatus /\
    v1alpha1.Spec obj = "flink:1.8.1" /\
    v1alpha1.ObjectMeta obj = sampleMeta "c1".
Proof.
  intros c w.
  destruct (proj2 (@observed_state_frame string w) v1alpha1.zeroStatus c
              eq_refl) as [obj [Hrun [Hst [Hsp Hme]]]].
  exists obj; rewrite Hrun.
  repeat split; assumption.
Defined.

Lemma derive_deterministic_witness :
  let o := sampleObserved None (Some sampleTm) (Some sampleJob) in
  fst (deriveClusterStatus (sampleWorld o)) =
    fst (deriveClusterStatus (sampleWorldConflict o)) /\
  snd (deriveClusterStatus (sampleWorld o)) = sampleWorld o.
Proof.
  intros o.
  destruct (@derive_deterministic string (sampleWorld o)
              (sampleWorldConflict o) eq_refl) as [Heq [Hw _]].
  split; assumption.
Defined.

Lemma changed_status_persisted_once_witness :
  let w :=
    sampleWorldConflict
      (sampleObserved
         (Some (sampleCluster (sampleStatus None "2019-09-30T10:00:00Z")))
         (Some sampleTm) None) in
  fst (updateClusterStatusIfChanged w) =
    Returned (Some "the object has been modified") /\
  length (updates (snd (updateClusterStatusIfChanged w))) = 1%nat.
Proof.
  intros w.
  destruct (@changed_status_persisted_once string w
              (sampleCluster (sampleStatus None "2019-09-30T10:00:00Z"))
              eq_refl)
    as [Hret Hupd].
  - left; cbn; discriminate.
  - left; reflexivity.
  - split; [ exact Hret | rewrite Hupd; reflexivity ].
Defined.

Lemma fresh_cluster_status_written_witness :
  let w :=
    sampleWorld (sampleObservedBare (Some (sampleCluster v1alpha1.zeroStatus)))
  in
  exists obj,
    fst (updateClusterStatusIfChanged w) = Returned None /\
    updates (snd (updateClusterStatusIfChanged w)) = [obj] /\
    v1alpha1.LastUpdateTime (v1alpha1.Status obj) = "2019-10-01T12:00:00Z".
Proof.
  intros w.
  destruct (@fresh_cluster_status_written string w
              (sampleCluster v1alpha1.zeroStatus) eq_refl eq_refl)
    as [obj [Hret [Hupd [Htime _]]]].
  exists obj; split; [ exact Hret | split; [ exact Hupd | exact Htime ] ].
Defined.

Lemma absent_component_reconciling_witness :
  let w := sampleWorld (sampleObserved None None None) in
  exists st,
    deriveClusterStatus w = (Returned st, w) /\
    v1alpha1.State st = v1alpha1.ClusterState.Reconciling.
Proof.
  intros w.
  apply (@absent_component_reconciling string w).
  right; right; reflexivity.
Defined.

Lemma idle_deployments_running_witness :
  let w :=
    sampleWorld
      {| cluster := None;
         jmDeployment := Some (sampleDeployment "c1-jobmanager" 0 0 0);
         jmService := Some sampleService;
         tmDeployment := Some (sampleDeployment "c1-taskmanager" 0 0 0);
         job := None |} in
  exists st,
    deriveClusterStatus w = (Returned st, w) /\
    v1alpha1.State st = v1alpha1.ClusterState.Running.
Proof.
  intros w.
  apply (@idle_deployments_running string w
           (sampleDeployment "c1-jobmanager" 0 0 0) sampleService
           (sampleDeployment "c1-taskmanager" 0 0 0));
    first [ reflexivity | cbn; lia ].
Defined.

Lemma recorded_timestamp_ignored_witness :
  let c := sampleCluster (sampleStatus None "2019-09-30T10:00:00Z") in
  let w := sampleWorld (sampleObserved (Some c) (Some sampleTm) None) in
  let w' :=
    withCluster
      (Some (sampleCluster (sampleStatus None "2019-09-30T23:59:59Z"))) w in
  fst (updateClusterStatusIfChanged w') = fst (updateClusterStatusIfChanged w)
  /\
  updates (snd (updateClusterStatusIfChanged w')) =
  updates (snd (updateClusterStatusIfChanged w)).
Proof.
  intros c w w'.
  apply (@recorded_timestamp_ignored string w c "2019-09-30T23:59:59Z" eq_refl).
Defined.
